(** * Macallan RF performance tool: metric engine and compliance evaluator

    A shallow embedding of the frequency-domain metric engine
    ([src/core/rf_data/s_parameter_calculator.py]), of the criterion and
    device models ([src/core/models/test_criteria.py],
    [src/core/models/device.py]) and of the S-parameter compliance evaluator
    ([src/core/test_types/s_parameters.py]), with the properties the
    specification states about them.

    Conventions of the embedding:
    - a Python [float] is a rational number ([Q]); comparisons are the
      boolean comparisons of [Q], so rounding, NaN and infinities are not
      represented;
    - a Python exception is a value of [exn]; a function that may raise
      returns [res A];
    - a Python [str] is a [string] of 8-bit characters; f-strings of
      integers are rendered with [pretty];
    - a Python [dict] keyed by strings is a [gmap string _];
    - the [uuid4()] identifier that every new [TestResult] draws is not
      represented: results are compared by their remaining fields. *)

From Stdlib Require Import QArith Ascii String.
From stdpp Require Import gmap strings list sorting pretty.

(** ** Exceptions *)

Inductive exn :=
  | ValueError
  | IndexError
  | TypeError
  | TestCriteriaError.

Inductive res (A : Type) :=
  | Ok (a : A)
  | Raise (e : exn).
Arguments Ok {A} a.
Arguments Raise {A} e.

#[global] Instance res_ret : MRet res := λ A a, Ok a.
#[global] Instance res_bind : MBind res := λ A B k r,
  match r with Ok a => k a | Raise e => Raise e end.

(** [except (ValueError, IndexError)]: the two classes the evaluator
    catches. *)
Definition is_value_or_index_error (e : exn) : bool :=
  match e with ValueError | IndexError => true | _ => false end.

(** [try: body / except (ValueError, IndexError): handler]. *)
Definition try_except {A} (body : res A) (handler : res A) : res A :=
  match body with
  | Ok a => Ok a
  | Raise e => if is_value_or_index_error e then handler else Raise e
  end.

(** ** Python built-ins on strings and optional floats *)

Module py.

(** [c.lower()] on one ASCII character. *)
Definition lower_ascii (c : ascii) : ascii :=
  let n := N_of_ascii c in
  if ((65 <=? n) && (n <=? 90))%N then ascii_of_N (n + 32) else c.

(** [s.lower()]. *)
Fixpoint lower (s : string) : string :=
  match s with
  | EmptyString => EmptyString
  | String c s' => String (lower_ascii c) (lower s')
  end.

(** [needle in hay] on strings. *)
Fixpoint contains (needle hay : string) : bool :=
  String.prefix needle hay ||
  match hay with
  | EmptyString => false
  | String _ hay' => contains needle hay'
  end.

(** Truth value of an [Optional[float]]: [None] and zero are false. *)
Definition truthy (o : option Q) : bool :=
  match o with
  | Some q => negb (Qeq_bool q 0)
  | None => false
  end.

(** [int(d)] for one decimal digit. *)
Definition int_of_digit (c : ascii) : Z :=
  match Ascii.is_nat c with Some n => Z.of_nat n | None => 0 end.

(** [\d] on 8-bit characters. *)
Definition is_digit (c : ascii) : bool :=
  match Ascii.is_nat c with Some _ => true | None => false end.

End py.

(** ** [TestCriteria]  (src/core/models/test_criteria.py) *)

Module TestCriteria.

(** The fields the engine reads.  [device_id], [test_type], [test_stage]
    and [unit] play no part in evaluation. *)
Record t := mk {
  id : N;
  requirement_name : string;
  criteria_type : string;
  min_value : option Q;
  max_value : option Q;
  frequency_min : option Q;
  frequency_max : option Q
}.

Definition allowed : list string :=
  ["range"; "min"; "max"; "less_than_equal"; "greater_than_equal"].

Definition validate_criteria_type (v : string) : res string :=
  if bool_decide (v ∈ allowed) then Ok v else Raise TestCriteriaError.

(** [a >= b] on two optional floats that were checked not to be [None]. *)
Definition ge_opt (a b : option Q) : bool :=
  match a, b with
  | Some x, Some y => Qle_bool y x
  | _, _ => false
  end.

Definition validate_criteria_values (self : t) : res t :=
  _ ← (if String.eqb (criteria_type self) "range" then
         if bool_decide (min_value self = None) || bool_decide (max_value self = None)
         then Raise TestCriteriaError
         else if ge_opt (min_value self) (max_value self)
         then Raise TestCriteriaError
         else Ok ()
       else if String.eqb (criteria_type self) "min"
               || String.eqb (criteria_type self) "greater_than_equal" then
         if bool_decide (min_value self = None) then Raise TestCriteriaError
         else if negb (bool_decide (max_value self = None)) then Raise TestCriteriaError
         else Ok ()
       else if String.eqb (criteria_type self) "max"
               || String.eqb (criteria_type self) "less_than_equal" then
         if bool_decide (max_value self = None) then Raise TestCriteriaError
         else if negb (bool_decide (min_value self = None)) then Raise TestCriteriaError
         else Ok ()
       else Ok ());
  _ ← (if negb (bool_decide (frequency_min self = None))
          || negb (bool_decide (frequency_max self = None)) then
         if bool_decide (frequency_min self = None)
            || bool_decide (frequency_max self = None)
         then Raise TestCriteriaError
         else if ge_opt (frequency_min self) (frequency_max self)
         then Raise TestCriteriaError
         else Ok ()
       else Ok ());
  Ok self.

(** Construction: the field validator, then the model validator. *)
Definition construct (self : t) : res t :=
  _ ← validate_criteria_type (criteria_type self);
  validate_criteria_values self.

(** A constructed instance is one that passed both validators. *)
Definition constructed (self : t) : Prop := construct self = Ok self.

(** [evaluate].  A comparison with [None] raises [TypeError]; the chained
    comparison of the range case stops at its first false link. *)
Definition evaluate (self : t) (value : Q) : res bool :=
  if String.eqb (criteria_type self) "range" then
    match min_value self with
    | None => Raise TypeError
    | Some lo =>
        if Qle_bool lo value then
          match max_value self with
          | None => Raise TypeError
          | Some hi => Ok (Qle_bool value hi)
          end
        else Ok false
    end
  else if String.eqb (criteria_type self) "min"
          || String.eqb (criteria_type self) "greater_than_equal" then
    match min_value self with
    | None => Raise TypeError
    | Some lo => Ok (Qle_bool lo value)
    end
  else if String.eqb (criteria_type self) "max"
          || String.eqb (criteria_type self) "less_than_equal" then
    match max_value self with
    | None => Raise TypeError
    | Some hi => Ok (Qle_bool value hi)
    end
  else Raise TestCriteriaError.

End TestCriteria.

(** ** NumPy operations on arrays of floats *)

#[global] Instance Qle_decision : RelDecision Qle.
Proof.
  intros x y. refine (cast_if (decide (Qle_bool x y = true)));
    abstract (by rewrite <-Qle_bool_iff).
Defined.

Module np.

Definition minimum (a b : Q) : Q := if Qle_bool a b then a else b.
Definition maximum (a b : Q) : Q := if Qle_bool a b then b else a.

(** [np.clip(x, lo, hi)]. *)
Definition clip (x lo hi : Q) : Q := minimum (maximum x lo) hi.

(** [a.min()] and [a.max()] of an array known to be non-empty. *)
Definition min_ne (x : Q) (a : list Q) : Q := foldl minimum x a.
Definition max_ne (x : Q) (a : list Q) : Q := foldl maximum x a.

(** [np.min(a)] and [np.max(a)]: a zero-size array has no minimum and
    the reduction raises [ValueError]. *)
Definition min (a : list Q) : res Q :=
  match a with
  | [] => Raise ValueError
  | x :: a' => Ok (min_ne x a')
  end.
Definition max (a : list Q) : res Q :=
  match a with
  | [] => Raise ValueError
  | x :: a' => Ok (max_ne x a')
  end.

(** [np.sort(a)]. *)
Definition sort (a : list Q) : list Q := merge_sort Qle a.

(** Adjacent equal values of a sorted array collapse to one. *)
Fixpoint dedup_sorted (a : list Q) : list Q :=
  match a with
  | [] => []
  | x :: a' =>
      match a' with
      | y :: _ => if Qeq_bool x y then dedup_sorted a' else x :: dedup_sorted a'
      | [] => [x]
      end
  end.

(** [np.unique(a)]: the sorted distinct values. *)
Definition unique (a : list Q) : list Q := dedup_sorted (sort a).

(** [a[mask]] with a boolean mask. *)
Fixpoint compress {A} (mask : list bool) (a : list A) : list A :=
  match mask, a with
  | b :: mask', x :: a' => if b then x :: compress mask' a' else compress mask' a'
  | _, _ => []
  end.

(** Resolution of an integer index on an axis of the given size:
    negative indices count from the end, anything else out of range
    raises [IndexError]. *)
Definition index (size : nat) (i : Z) : res nat :=
  let n := Z.of_nat size in
  if bool_decide (0 ≤ i < n)%Z then Ok (Z.to_nat i)
  else if bool_decide (- n ≤ i < 0)%Z then Ok (Z.to_nat (i + n))
  else Raise IndexError.

(** [a[:, i, j]] on an array of shape [(N, size, size)]. *)
Definition column {A} (d : A) (size : nat) (a : list (list (list A)))
    (i j : Z) : res (list A) :=
  i' ← index size i;
  j' ← index size j;
  Ok ((λ m, default d (row ← m !! i'; row !! j')) <$> a).

End np.

(** ** scikit-rf networks *)

(** The two scalar conversions of scikit-rf that leave the rationals:
    [mag_db c] is [20*log10(|c|)] and [mag_vswr c] is
    [(1+|c|)/(1-|c|)].  The calculator only ever compares and subtracts
    their results, so they are kept abstract. *)
Class RFScale := {
  mag_db : Q * Q → Q;
  mag_vswr : Q * Q → Q
}.

Module Network.

(** A complex sample, as real and imaginary part. *)
Abbreviation complex := (Q * Q)%type.
Abbreviation matrix := (list (list complex)).

(** [f]: frequencies in Hz; [s]: one [nports × nports] matrix per
    frequency. *)
Record t := mk {
  f : list Q;
  s : list matrix;
  nports : nat
}.

Definition s_db `{RFScale} (n : t) : list (list (list Q)) :=
  (λ m : matrix, (λ row : list complex, mag_db <$> row) <$> m) <$> s n.
Definition s_vswr `{RFScale} (n : t) : list (list (list Q)) :=
  (λ m : matrix, (λ row : list complex, mag_vswr <$> row) <$> m) <$> s n.

(** The straight line through [(x0, y0)] and [(x1, y1)] at [x]. *)
Definition lerp (x0 x1 x y0 y1 : Q) : Q :=
  (y0 + (y1 - y0) / (x1 - x0) * (x - x0))%Q.
Definition lerp_complex (x0 x1 x : Q) (y0 y1 : complex) : complex :=
  (lerp x0 x1 x y0.1 y1.1, lerp x0 x1 x y0.2 y1.2).
Definition lerp_matrix (x0 x1 x : Q) (y0 y1 : matrix) : matrix :=
  zip_with (zip_with (lerp_complex x0 x1 x)) y0 y1.

(** Piecewise-linear interpolation of the samples [ys] on the grid [xs]
    at [x]: the segment used is the first one whose right end is not
    below [x], or the last segment. *)
Fixpoint interp1d (xs : list Q) (ys : list matrix) (x : Q) : matrix :=
  match xs, ys with
  | x0 :: xs', y0 :: ys' =>
      match xs', ys' with
      | x1 :: xs'', y1 :: _ =>
          if Qle_bool x x1 || match xs'' with [] => true | _ => false end
          then lerp_matrix x0 x1 x y0 y1
          else interp1d xs' ys' x
      | _, _ => y0
      end
  | _, _ => []
  end.

(** Modelled from the spec: scikit-rf's [Network.interpolate] is not part
    of the repository.  Section 4.1 step 4 describes its result: new
    S-parameter values at the target frequency set by linear
    interpolation, real and imaginary parts independently, against the
    original grid.  A network with a single sample is constant. *)
Definition interpolate (n : t) (targets : list Q) : t :=
  mk targets (interp1d (f n) (s n) <$> targets) (nports n).

(** [network[mask]]: the frequency points selected by a boolean mask. *)
Definition getitem (n : t) (mask : list bool) : t :=
  mk (np.compress mask (f n)) (np.compress mask (s n)) (nports n).

End Network.

(** ** [SParameterCalculator]  (src/core/rf_data/s_parameter_calculator.py) *)

(** The result of [calculate_vswr]: a scalar when a frequency range was
    given, the per-frequency array otherwise. *)
Inductive vswr_result :=
  | VswrScalar (v : Q)
  | VswrArray (a : list Q).

Module SParameterCalculator.
Section calculator.
Context `{RFScale}.
Open Scope Q_scope.

Definition filter_frequency_range (network : Network.t)
    (freq_min freq_max : Q) : Network.t :=
  let freq_min_hz := freq_min * 1e9 in
  let freq_max_hz := freq_max * 1e9 in
  let freq_hz := Network.f network in
  match freq_hz with
  | [] => network
  | f0 :: rest =>
      let '(freq_min_hz, freq_max_hz) :=
        if negb (Qle_bool freq_min_hz freq_max_hz)
        then (freq_max_hz, freq_min_hz) else (freq_min_hz, freq_max_hz) in
      let global_min := np.min_ne f0 rest in
      let global_max := np.max_ne f0 rest in
      let target_min := np.clip freq_min_hz global_min global_max in
      let target_max := np.clip freq_max_hz global_min global_max in
      let interior :=
        List.filter (λ x, Qle_bool target_min x && Qle_bool x target_max) freq_hz in
      let targets := interior ++ [target_min; target_max] in
      let targets := np.unique (np.sort targets) in
      let interpolated := Network.interpolate network targets in
      let mask :=
        (λ x, Qle_bool (target_min - 1e-9) x && Qle_bool x (target_max + 1e-9))
          <$> Network.f interpolated in
      Network.getitem interpolated mask
  end.

(** [re.match(r"S(\d)(\d)", s_param)]: the pattern is matched at the
    start of the string and says nothing about what follows it. *)
Definition re_match (s_param : string) : option (ascii * ascii) :=
  match s_param with
  | String "S" (String d1 (String d2 _)) =>
      if py.is_digit d1 && py.is_digit d2 then Some (d1, d2) else None
  | _ => None
  end.

Definition calculate_gain (network : Network.t) (s_param : string)
    : res (list Q) :=
  match re_match s_param with
  | None => Raise ValueError
  | Some (g1, g2) =>
      let output_port := (py.int_of_digit g1 - 1)%Z in
      let input_port := (py.int_of_digit g2 - 1)%Z in
      np.column 0 (Network.nports network) (Network.s_db network)
        output_port input_port
  end.

Definition calculate_gain_range (network : Network.t)
    (freq_min freq_max : Q) (s_param : string) : res (Q * Q) :=
  let filtered := filter_frequency_range network freq_min freq_max in
  gain_db ← calculate_gain filtered s_param;
  min_gain ← np.min gain_db;
  max_gain ← np.max gain_db;
  Ok (min_gain, max_gain).

Definition calculate_flatness (network : Network.t)
    (freq_min freq_max : Q) (s_param : string) : res Q :=
  '(min_gain, max_gain) ← calculate_gain_range network freq_min freq_max s_param;
  Ok (max_gain - min_gain).

Definition calculate_lowest_in_band_gain (network : Network.t)
    (freq_min freq_max : Q) (s_param : string) : res Q :=
  '(min_gain, _) ← calculate_gain_range network freq_min freq_max s_param;
  Ok min_gain.

Definition calculate_oob_rejection (network : Network.t)
    (oob_freq_min oob_freq_max : Q)
    (operational_freq_min operational_freq_max : Q)
    (s_param : string) : res Q :=
  lowest_in_band ←
    calculate_lowest_in_band_gain network
      operational_freq_min operational_freq_max s_param;
  let oob_network := filter_frequency_range network oob_freq_min oob_freq_max in
  gain_at_oob ← calculate_gain oob_network s_param;
  let rejections_dbce := (λ g, lowest_in_band - g) <$> gain_at_oob in
  np.min rejections_dbce.

Definition calculate_vswr (network : Network.t) (port : Z)
    (freq_min freq_max : option Q) : res vswr_result :=
  let filtered :=
    match freq_min, freq_max with
    | Some lo, Some hi => filter_frequency_range network lo hi
    | _, _ => network
    end in
  let port_idx := (port - 1)%Z in
  vswr ←
    match np.column 0 (Network.nports filtered) (Network.s_vswr filtered)
            port_idx port_idx with
    | Ok v => Ok v
    | Raise IndexError => Raise ValueError
    | Raise e => Raise e
    end;
  match freq_min, freq_max with
  | Some _, Some _ => v ← np.max vswr; Ok (VswrScalar v)
  | _, _ => Ok (VswrArray vswr)
  end.

End calculator.
End SParameterCalculator.

(** ** [Device]  (src/core/models/device.py) *)

Module Device.

(** The port configuration of a device; the remaining fields (name, part
    number, frequency ranges, test list) are not read by the evaluator. *)
Record t := mk {
  input_ports : list Z;
  output_ports : list Z
}.

Definition validate_port_configuration (self : t) : res t :=
  let overlap : gset Z :=
    list_to_set (input_ports self) ∩ list_to_set (output_ports self) in
  if negb (bool_decide (overlap = ∅)) then Raise ValueError
  else if existsb (λ p, bool_decide (p < 1)%Z)
            (input_ports self ++ output_ports self)
  then Raise ValueError
  else if bool_decide (input_ports self = []) then Raise ValueError
  else if bool_decide (output_ports self = []) then Raise ValueError
  else Ok self.

Definition validated (self : t) : Prop :=
  validate_port_configuration self = Ok self.

(** [sorted(set(self.input_ports + self.output_ports))]. *)
Definition get_all_ports (self : t) : list Z :=
  merge_sort Z.le (remove_dups (input_ports self ++ output_ports self)).

(** [f"S{output_port}{input_port}"]. *)
Definition label (output_port input_port : Z) : string :=
  "S" +:+ pretty output_port +:+ pretty input_port.

Definition get_gain_s_parameters (self : t) (n_ports : Z) : list string :=
  let gain_params :=
    input_port ← input_ports self;
    output_port ← output_ports self;
    if bool_decide (input_port ≤ n_ports)%Z && bool_decide (output_port ≤ n_ports)%Z
    then [label output_port input_port] else [] in
  merge_sort String.le gain_params.

Definition get_vswr_s_parameters (self : t) (n_ports : Z) : list string :=
  let all_ports := get_all_ports self in
  let vswr_params :=
    p ← all_ports;
    if bool_decide (p ≤ n_ports)%Z then [label p p] else [] in
  merge_sort String.le vswr_params.

End Device.

(** ** [Measurement] and [TestResult] *)

Module Measurement.

(** [touchstone_data] is [None], a network, or the pickled bytes of a
    network, which the loader turns back into that network: both are
    [Some network] here. *)
Record t := mk {
  id : N;
  touchstone_data : option Network.t
}.

End Measurement.

Module TestResult.

Record t := mk {
  measurement_id : N;
  test_criteria_id : N;
  measured_value : option Q;
  passed : bool;
  s_parameter : option string;
  is_stale : bool
}.

End TestResult.

(** ** [SParametersTestType]  (src/core/test_types/s_parameters.py) *)

(** The values stored in the metrics dictionary: the [{"min", "max"}]
    dictionary of a gain range, a float, or an array. *)
Inductive metric :=
  | GainRangeMetric (min_gain max_gain : Q)
  | ScalarMetric (v : Q)
  | ArrayMetric (a : list Q).

Definition metric_of_vswr (v : vswr_result) : metric :=
  match v with
  | VswrScalar x => ScalarMetric x
  | VswrArray a => ArrayMetric a
  end.

(** [for x in xs: state = body(x, state)], leaving the loop at the first
    exception that escapes the body. *)
Fixpoint for_each {A S} (xs : list A) (body : A → S → res S) (state : S) : res S :=
  match xs with
  | [] => Ok state
  | x :: xs' => state' ← body x state; for_each xs' body state'
  end.

Module SParametersTestType.
Section test_type.
Context `{RFScale}.

(** The handler of [except (ValueError, IndexError): pass]: the entries
    stored before the exception stay in the dictionary. *)
Definition except_pass {S} (e : exn) (state : S) : res S :=
  if is_value_or_index_error e then Ok state else Raise e.

(** The body of the loop over all S-parameters of [calculate_metrics]. *)
Definition gain_metrics_body (network : Network.t)
    (operational_freq_min operational_freq_max : Q) (s_param : string)
    (metrics : gmap string metric) : res (gmap string metric) :=
  match SParameterCalculator.calculate_gain_range
          network operational_freq_min operational_freq_max s_param with
  | Raise e => except_pass e metrics
  | Ok (min_gain, max_gain) =>
      let metrics :=
        <[s_param +:+ " Gain Range" := GainRangeMetric min_gain max_gain]> metrics in
      match SParameterCalculator.calculate_flatness
              network operational_freq_min operational_freq_max s_param with
      | Raise e => except_pass e metrics
      | Ok flatness =>
          let metrics := <[s_param +:+ " Flatness" := ScalarMetric flatness]> metrics in
          match SParameterCalculator.calculate_lowest_in_band_gain
                  network operational_freq_min operational_freq_max s_param with
          | Raise e => except_pass e metrics
          | Ok lowest_gain =>
              Ok (<[s_param +:+ " Lowest In-Band Gain" := ScalarMetric lowest_gain]> metrics)
          end
      end
  end.

(** The body of the loop over all ports of [calculate_metrics]. *)
Definition vswr_metrics_body (network : Network.t)
    (operational_freq_min operational_freq_max : Q) (port : Z)
    (metrics : gmap string metric) : res (gmap string metric) :=
  match SParameterCalculator.calculate_vswr network port
          (Some operational_freq_min) (Some operational_freq_max) with
  | Raise e => except_pass e metrics
  | Ok vswr =>
      let s_param := Device.label port port in
      Ok (<[s_param +:+ " VSWR" := metric_of_vswr vswr]> metrics)
  end.

Definition calculate_metrics (measurement : Measurement.t)
    (operational_freq_min operational_freq_max : Q)
    : res (gmap string metric) :=
  match Measurement.touchstone_data measurement with
  | None => Raise ValueError
  | Some network =>
      let metrics : gmap string metric := ∅ in
      let n_ports := Z.of_nat (Network.nports network) in
      metrics ←
        for_each (seqZ 1 n_ports) (λ out_port metrics,
          for_each (seqZ 1 n_ports) (λ in_port metrics,
            let s_param := Device.label out_port in_port in
            gain_metrics_body network operational_freq_min operational_freq_max
              s_param metrics) metrics) metrics;
      for_each (seqZ 1 n_ports) (λ port metrics,
        vswr_metrics_body network operational_freq_min operational_freq_max
          port metrics) metrics
  end.

Definition _evaluate_gain_range_criterion (criterion : TestCriteria.t)
    (metrics : gmap string metric) (s_param : string)
    (measurement : Measurement.t) : res (option TestResult.t) :=
  let metric_key := s_param +:+ " Gain Range" in
  match metrics !! metric_key with
  | None => Ok None
  | Some (GainRangeMetric min_gain max_gain) =>
      min_pass ← TestCriteria.evaluate criterion min_gain;
      max_pass ← TestCriteria.evaluate criterion max_gain;
      let passed := min_pass && max_pass in
      let measured_value := max_gain in
      Ok (Some (TestResult.mk (Measurement.id measurement)
                  (TestCriteria.id criterion) (Some measured_value) passed
                  (Some s_param) false))
  | Some _ => Raise TypeError
  end.

(** The common shape of the flatness and VSWR evaluations: one scalar
    read from the dictionary under [s_param ++ suffix]. *)
Definition evaluate_scalar_metric (suffix : string) (criterion : TestCriteria.t)
    (metrics : gmap string metric) (s_param : string)
    (measurement : Measurement.t) : res (option TestResult.t) :=
  let metric_key := s_param +:+ suffix in
  match metrics !! metric_key with
  | None => Ok None
  | Some (ScalarMetric v) =>
      passed ← TestCriteria.evaluate criterion v;
      Ok (Some (TestResult.mk (Measurement.id measurement)
                  (TestCriteria.id criterion) (Some v) passed
                  (Some s_param) false))
  | Some _ => Raise TypeError
  end.

Definition _evaluate_flatness_criterion :=
  evaluate_scalar_metric " Flatness".

Definition _evaluate_vswr_criterion :=
  evaluate_scalar_metric " VSWR".

Definition _evaluate_oob_criterion (criterion : TestCriteria.t)
    (network : Network.t) (s_param : string) (measurement : Measurement.t)
    (operational_freq_min operational_freq_max : Q)
    : res (option TestResult.t) :=
  match TestCriteria.frequency_min criterion,
        TestCriteria.frequency_max criterion with
  | Some frequency_min, Some frequency_max =>
      try_except
        (rejection ←
           SParameterCalculator.calculate_oob_rejection network
             frequency_min frequency_max
             operational_freq_min operational_freq_max s_param;
         let passed :=
           if py.truthy (TestCriteria.min_value criterion)
           then TestCriteria.ge_opt (Some rejection) (TestCriteria.min_value criterion)
           else false in
         Ok (Some (TestResult.mk (Measurement.id measurement)
                     (TestCriteria.id criterion) (Some rejection) passed
                     (Some s_param) false)))
        (Ok None)
  | _, _ => Ok None
  end.

(** [for s_param in s_params: result = evaluate(...); if result:
    results.append(result)]. *)
Definition collect (s_params : list string)
    (evaluate : string → res (option TestResult.t)) : res (list TestResult.t) :=
  for_each s_params (λ s_param results,
    result ← evaluate s_param;
    Ok (match result with
        | Some r => results ++ [r]
        | None => results
        end)) [].

Definition _evaluate_criterion_for_all_s_params (criterion : TestCriteria.t)
    (metrics : gmap string metric) (network : Network.t)
    (measurement : Measurement.t)
    (operational_freq_min operational_freq_max : Q)
    (gain_s_params vswr_s_params : list string) : res (list TestResult.t) :=
  let req_name := py.lower (TestCriteria.requirement_name criterion) in
  if py.contains "gain" req_name && py.contains "range" req_name then
    collect gain_s_params (λ s_param,
      _evaluate_gain_range_criterion criterion metrics s_param measurement)
  else if py.contains "flatness" req_name then
    collect gain_s_params (λ s_param,
      _evaluate_flatness_criterion criterion metrics s_param measurement)
  else if py.contains "vswr" req_name then
    collect vswr_s_params (λ s_param,
      _evaluate_vswr_criterion criterion metrics s_param measurement)
  else if negb (bool_decide (TestCriteria.frequency_min criterion = None))
          && negb (bool_decide (TestCriteria.frequency_max criterion = None)) then
    collect gain_s_params (λ s_param,
      _evaluate_oob_criterion criterion network s_param measurement
        operational_freq_min operational_freq_max)
  else Ok [].

Definition evaluate_compliance (measurement : Measurement.t)
    (device : Device.t) (test_criteria : list TestCriteria.t)
    (operational_freq_min operational_freq_max : Q)
    : res (list TestResult.t) :=
  metrics ← calculate_metrics measurement operational_freq_min operational_freq_max;
  match Measurement.touchstone_data measurement with
  | None => Raise TypeError
  | Some network =>
      let n_ports := Z.of_nat (Network.nports network) in
      let gain_s_params := Device.get_gain_s_parameters device n_ports in
      let vswr_s_params := Device.get_vswr_s_parameters device n_ports in
      for_each test_criteria (λ criterion results,
        criterion_results ←
          _evaluate_criterion_for_all_s_params criterion metrics network
            measurement operational_freq_min operational_freq_max
            gain_s_params vswr_s_params;
        Ok (results ++ criterion_results)) []
  end.

End test_type.
End SParametersTestType.

(** * Notions used to state the properties *)

(** The value carried by a successful call, if any. *)
Definition res_get {A} (r : res (option A)) : option A :=
  match r with Ok o => o | Raise _ => None end.

(** The five metric families of section 4.3, step 1. *)
Inductive family :=
  | GainRangeFamily
  | FlatnessFamily
  | VswrFamily
  | OobFamily
  | Unclassified.

(** The criterion's [band]: both frequency bounds, or nothing. *)
Definition band (c : TestCriteria.t) : option (Q * Q) :=
  match TestCriteria.frequency_min c, TestCriteria.frequency_max c with
  | Some lo, Some hi => Some (lo, hi)
  | _, _ => None
  end.

(** [marker] occurs in the criterion's name, case-insensitively. *)
Definition has_marker (marker : string) (c : TestCriteria.t) : bool :=
  py.contains marker (py.lower (TestCriteria.requirement_name c)).

(** The classification as the specification words it: "gain"+"range",
    then "flatness", then "vswr", then a set band, otherwise skipped. *)
Definition classify (c : TestCriteria.t) : family :=
  if has_marker "gain" c && has_marker "range" c then GainRangeFamily
  else if has_marker "flatness" c then FlatnessFamily
  else if has_marker "vswr" c then VswrFamily
  else if bool_decide (is_Some (band c)) then OobFamily
  else Unclassified.

(** A label of the exact form [S{digit}{digit}]. *)
Definition exact_label (s_param : string) : bool :=
  match s_param with
  | String "S" (String d1 (String d2 EmptyString)) =>
      py.is_digit d1 && py.is_digit d2
  | _ => false
  end.

(** [r] raises nothing but what [except (ValueError, IndexError)]
    catches. *)
Definition caught {A} (r : res A) : Prop :=
  ∀ e, r = Raise e → is_value_or_index_error e = true.

(** The pass flag of an out-of-band result, as a function of the
    rejection: the bound must be present and non-zero, and not above the
    rejection. *)
Definition oob_passed (c : TestCriteria.t) (rejection : Q) : bool :=
  match TestCriteria.min_value c with
  | Some lower => negb (Qeq_bool lower 0) && Qle_bool lower rejection
  | None => false
  end.

(** ** The contents of the metrics dictionary *)

(** [metrics[key] = value]. *)
Definition put (metrics : gmap string metric) (entry : string * metric)
    : gmap string metric :=
  <[entry.1 := entry.2]> metrics.

(** The entries [calculate_metrics] stores for one S-parameter, in the
    order of the assignments; none when the gain range cannot be
    computed. *)
Definition gain_entries `{RFScale} (network : Network.t) (lo hi : Q)
    (s_param : string) : list (string * metric) :=
  match SParameterCalculator.calculate_gain_range network lo hi s_param with
  | Ok (min_gain, max_gain) =>
      [ (s_param +:+ " Gain Range", GainRangeMetric min_gain max_gain);
        (s_param +:+ " Flatness", ScalarMetric (max_gain - min_gain)%Q);
        (s_param +:+ " Lowest In-Band Gain", ScalarMetric min_gain) ]
  | Raise _ => []
  end.

(** The entry [calculate_metrics] stores for one port. *)
Definition vswr_entries `{RFScale} (network : Network.t) (lo hi : Q)
    (port : Z) : list (string * metric) :=
  match SParameterCalculator.calculate_vswr network port (Some lo) (Some hi) with
  | Ok vswr => [ (Device.label port port +:+ " VSWR", metric_of_vswr vswr) ]
  | Raise _ => []
  end.

(** The labels [calculate_metrics] visits: every [S{out}{in}] with both
    ports between 1 and the port count. *)
Definition all_labels (n_ports : Z) : list string :=
  out_port ← seqZ 1 n_ports;
  in_port ← seqZ 1 n_ports;
  [Device.label out_port in_port].

(** All assignments of [calculate_metrics], in program order. *)
Definition stored_entries `{RFScale} (network : Network.t) (lo hi : Q)
    : list (string * metric) :=
  let n_ports := Z.of_nat (Network.nports network) in
  (all_labels n_ports ≫= gain_entries network lo hi)
  ++ (seqZ 1 n_ports ≫= vswr_entries network lo hi).

(** ** The result expected for one criterion and one label *)

(** [evaluate] as a total predicate: an evaluation that raises does not
    pass. *)
Definition passes (c : TestCriteria.t) (v : Q) : bool :=
  match TestCriteria.evaluate c v with Ok b => b | Raise _ => false end.

(** The port [p] between 1 and the port count whose reflection label
    [S{p}{p}] is [s_param]. *)
Definition port_of_label (n_ports : Z) (s_param : string) : option Z :=
  snd <$> list_find (λ p, Device.label p p = s_param) (seqZ 1 n_ports).

Definition result_of (m : Measurement.t) (c : TestCriteria.t)
    (s_param : string) (measured : Q) (passed : bool) : TestResult.t :=
  TestResult.mk (Measurement.id m) (TestCriteria.id c) (Some measured) passed
    (Some s_param) false.

(** The outcome of one (criterion, label) pair, computed from the
    calculator alone: the result when the metric of the criterion's family
    is available for the label, nothing otherwise. *)
Definition expected_result `{RFScale} (network : Network.t)
    (m : Measurement.t) (lo hi : Q) (c : TestCriteria.t) (s_param : string)
    : option TestResult.t :=
  let n_ports := Z.of_nat (Network.nports network) in
  match classify c with
  | GainRangeFamily =>
      if bool_decide (s_param ∈ all_labels n_ports) then
        match SParameterCalculator.calculate_gain_range network lo hi s_param with
        | Ok (min_gain, max_gain) =>
            Some (result_of m c s_param max_gain
                    (passes c min_gain && passes c max_gain))
        | Raise _ => None
        end
      else None
  | FlatnessFamily =>
      if bool_decide (s_param ∈ all_labels n_ports) then
        match SParameterCalculator.calculate_flatness network lo hi s_param with
        | Ok flatness => Some (result_of m c s_param flatness (passes c flatness))
        | Raise _ => None
        end
      else None
  | VswrFamily =>
      match port_of_label n_ports s_param with
      | Some port =>
          match SParameterCalculator.calculate_vswr network port (Some lo) (Some hi) with
          | Ok (VswrScalar vswr) => Some (result_of m c s_param vswr (passes c vswr))
          | _ => None
          end
      | None => None
      end
  | OobFamily =>
      match band c with
      | Some (flo, fhi) =>
          match SParameterCalculator.calculate_oob_rejection
                  network flo fhi lo hi s_param with
          | Ok rejection =>
              Some (result_of m c s_param rejection (oob_passed c rejection))
          | Raise _ => None
          end
      | None => None
      end
  | Unclassified => None
  end.

(** The labels a criterion is evaluated on, by family. *)
Definition labels_for (gain_s_params vswr_s_params : list string)
    (c : TestCriteria.t) : list string :=
  match classify c with
  | GainRangeFamily | FlatnessFamily | OobFamily => gain_s_params
  | VswrFamily => vswr_s_params
  | Unclassified => []
  end.

(** ** Sample data: a two-port amplifier measured at four frequencies *)

Module demo.

(** A stand-in for the two conversions: the real part is read as the
    gain in dB, and one plus the imaginary part as the VSWR. *)
Definition scale : RFScale := {| mag_db c := c.1; mag_vswr c := (1 + c.2)%Q |}.

Definition sample (s21 : Q) : list (list (Q * Q)) :=
  [ [ (-20, 0.2); (-40, 0) ];
    [ (s21, 0);   (-18, 0.5) ] ]%Q.

(** S21 is 29 dB at 1 GHz, 30 dB at 2 GHz and -26 dB at 3 and 4 GHz. *)
Definition network : Network.t :=
  Network.mk [1e9; 2e9; 3e9; 4e9]%Q
    [sample 29; sample 30; sample (-26); sample (-26)] 2.

Definition measurement : Measurement.t := Measurement.mk 7 (Some network).

Definition device : Device.t := Device.mk [1%Z] [2%Z].

Definition gain_range : TestCriteria.t :=
  TestCriteria.mk 1 "Gain Range" "range" (Some 27.5%Q) (Some 31.3%Q) None None.

Definition vswr_max : TestCriteria.t :=
  TestCriteria.mk 2 "VSWR Max" "max" None (Some 2%Q) None None.

Definition oob (lower : Q) : TestCriteria.t :=
  TestCriteria.mk 3 "OOB 1" "greater_than_equal" (Some lower) None
    (Some 3%Q) (Some 4%Q).

End demo.

(** * Properties *)

(** ** Exceptions and rational comparisons *)

Lemma Qle_bool_decide (x y : Q) : Qle_bool x y = bool_decide (x <= y)%Q.
Proof.
  destruct (Qle_bool x y) eqn:E; symmetry.
  - by apply bool_decide_eq_true, Qle_bool_iff.
  - apply bool_decide_eq_false. rewrite <-Qle_bool_iff. congruence.
Qed.

Lemma Qle_bool_false (x y : Q) : Qle_bool x y = false ↔ (y < x)%Q.
Proof.
  rewrite <-not_true_iff_false, Qle_bool_iff. split.
  - apply Qnot_le_lt.
  - apply Qlt_not_le.
Qed.

Lemma Qle_bool_refl (x : Q) : Qle_bool x x = true.
Proof. apply Qle_bool_iff, Qle_refl. Qed.

Lemma bind_Ok {A B} (r : res A) (k : A → res B) (b : B) :
  r ≫= k = Ok b ↔ ∃ a, r = Ok a ∧ k a = Ok b.
Proof.
  destruct r as [a|e]; simpl; split.
  - intros Hk. by exists a.
  - by intros (a' & [= <-] & Hk).
  - done.
  - by intros (a' & [=] & _).
Qed.

Lemma bind_Ok_l {A B} (a : A) (k : A → res B) : Ok a ≫= k = k a.
Proof. done. Qed.

(** ** The criterion predicate *)

Section criteria_facts.
Import TestCriteria.
Open Scope Q_scope.

(** What construction establishes, by kind. *)
Lemma constructed_inv (c : t) :
  constructed c →
  criteria_type c ∈ allowed ∧
  (criteria_type c = "range" →
     ∃ lo hi, min_value c = Some lo ∧ max_value c = Some hi ∧ lo < hi) ∧
  (criteria_type c = "min" ∨ criteria_type c = "greater_than_equal" →
     ∃ lo, min_value c = Some lo ∧ max_value c = None) ∧
  (criteria_type c = "max" ∨ criteria_type c = "less_than_equal" →
     ∃ hi, max_value c = Some hi ∧ min_value c = None).
Proof.
  unfold constructed, construct, validate_criteria_type, validate_criteria_values.
  destruct c as [i nm ty mn mx fmn fmx]; simpl.
  intros (? & Hty & (? & Hc & _)%bind_Ok)%bind_Ok.
  split.
  { destruct (decide (ty ∈ allowed)) as [|Hn]; [done|].
    by rewrite (bool_decide_eq_false_2 _ Hn) in Hty. }
  clear Hty. repeat split.
  - intros ->. simpl in Hc.
    destruct mn as [lo|], mx as [hi|]; simpl in Hc; try done.
    destruct (Qle_bool hi lo) eqn:E; [done|].
    exists lo, hi. by apply Qle_bool_false in E.
  - intros [-> | ->]; simpl in Hc;
      destruct mn as [lo|], mx as [hi|]; simpl in Hc; try done; by exists lo.
  - intros [-> | ->]; simpl in Hc;
      destruct mn as [lo|], mx as [hi|]; simpl in Hc; try done; by exists hi.
Qed.

(** A constructed criterion never raises from [evaluate]. *)
Lemma constructed_evaluate_ok (c : t) (v : Q) :
  constructed c → ∃ b, evaluate c v = Ok b.
Proof.
  intros Hc. destruct (constructed_inv c Hc) as (Hty & Hr & Hmin & Hmax).
  unfold allowed in Hty. unfold evaluate.
  repeat (apply elem_of_cons in Hty as [Hty|Hty]); [..|by apply elem_of_nil in Hty].
  - destruct (Hr Hty) as (lo & hi & -> & -> & _). rewrite Hty. simpl.
    destruct (Qle_bool lo v); eauto.
  - destruct Hmin as (lo & -> & _); [by left|]. rewrite Hty. simpl. eauto.
  - destruct Hmax as (hi & -> & _); [by left|]. rewrite Hty. simpl. eauto.
  - destruct Hmax as (hi & -> & _); [by right|]. rewrite Hty. simpl. eauto.
  - destruct Hmin as (lo & -> & _); [by right|]. rewrite Hty. simpl. eauto.
Qed.

End criteria_facts.

(** C1. For a constructed criterion and any value [v], [evaluate] returns
    [lower <= v <= upper] for kind range, [v >= lower] for kinds min and
    greater_than_equal, and [v <= upper] for kinds max and less_than_equal;
    the kind is always one of these five.  For a range criterion
    [[lo, hi]] both ends evaluate to true and every value strictly below
    [lo] or strictly above [hi] evaluates to false. *)
Theorem evaluate_by_kind (c : TestCriteria.t) (v : Q) :
  TestCriteria.constructed c →
  TestCriteria.criteria_type c ∈ TestCriteria.allowed ∧
  (TestCriteria.criteria_type c = "range" →
     ∃ lo hi,
       TestCriteria.min_value c = Some lo ∧ TestCriteria.max_value c = Some hi ∧
       TestCriteria.evaluate c v = Ok (bool_decide (lo <= v ∧ v <= hi)%Q) ∧
       TestCriteria.evaluate c lo = Ok true ∧
       TestCriteria.evaluate c hi = Ok true ∧
       (∀ w, (w < lo)%Q → TestCriteria.evaluate c w = Ok false) ∧
       (∀ w, (hi < w)%Q → TestCriteria.evaluate c w = Ok false)) ∧
  (TestCriteria.criteria_type c = "min"
   ∨ TestCriteria.criteria_type c = "greater_than_equal" →
     ∃ lo,
       TestCriteria.min_value c = Some lo ∧
       TestCriteria.evaluate c v = Ok (bool_decide (lo <= v)%Q)) ∧
  (TestCriteria.criteria_type c = "max"
   ∨ TestCriteria.criteria_type c = "less_than_equal" →
     ∃ hi,
       TestCriteria.max_value c = Some hi ∧
       TestCriteria.evaluate c v = Ok (bool_decide (v <= hi)%Q)).
Proof.
  intros Hc. destruct (constructed_inv c Hc) as (Hty & Hr & Hmin & Hmax).
  split; [done|]. repeat split.
  - intros Hk. destruct (Hr Hk) as (lo & hi & Hlo & Hhi & Hlt).
    exists lo, hi. unfold TestCriteria.evaluate. rewrite Hk, Hlo, Hhi. simpl.
    repeat split.
    + destruct (Qle_bool lo v) eqn:E; f_equal.
      * apply Qle_bool_iff in E. rewrite Qle_bool_decide.
        apply bool_decide_ext. tauto.
      * apply Qle_bool_false, Qlt_not_le in E.
        symmetry. apply bool_decide_eq_false. tauto.
    + rewrite Qle_bool_refl. f_equal. by apply Qle_bool_iff, Qlt_le_weak.
    + assert (Qle_bool lo hi = true) as -> by by apply Qle_bool_iff, Qlt_le_weak.
      by rewrite Qle_bool_refl.
    + intros w Hw. by apply Qle_bool_false in Hw as ->.
    + intros w Hw. apply Qle_bool_false in Hw as ->. by destruct (Qle_bool lo w).
  - intros Hk. destruct (Hmin Hk) as (lo & Hlo & _). exists lo.
    unfold TestCriteria.evaluate. rewrite Hlo, Qle_bool_decide.
    by destruct Hk as [-> | ->].
  - intros Hk. destruct (Hmax Hk) as (hi & Hhi & _). exists hi.
    unfold TestCriteria.evaluate. rewrite Hhi, Qle_bool_decide.
    by destruct Hk as [-> | ->].
Qed.

(** The sample gain-range criterion [27.5, 31.3] at the value 30. *)
Lemma evaluate_by_kind_witness :
  ∃ lo hi,
    TestCriteria.min_value demo.gain_range = Some lo ∧
    TestCriteria.max_value demo.gain_range = Some hi ∧
    TestCriteria.evaluate demo.gain_range 30
      = Ok (bool_decide (lo <= 30 ∧ 30 <= hi)%Q) ∧
    TestCriteria.evaluate demo.gain_range lo = Ok true ∧
    TestCriteria.evaluate demo.gain_range hi = Ok true ∧
    (∀ w, (w < lo)%Q → TestCriteria.evaluate demo.gain_range w = Ok false) ∧
    (∀ w, (hi < w)%Q → TestCriteria.evaluate demo.gain_range w = Ok false).
Proof. apply (evaluate_by_kind demo.gain_range 30); reflexivity. Defined.

(** ** Label parsing *)

Section label_facts.
Context `{RFScale}.
Import SParameterCalculator.

(** The parse looks at the first three characters only. *)
Lemma re_match_prefix (d1 d2 : ascii) (rest : string) :
  re_match (String "S" (String d1 (String d2 rest)))
  = if py.is_digit d1 && py.is_digit d2 then Some (d1, d2) else None.
Proof. done. Qed.

Lemma re_match_Some (s_param : string) (d1 d2 : ascii) :
  re_match s_param = Some (d1, d2) ↔
  py.is_digit d1 = true ∧ py.is_digit d2 = true ∧
  ∃ rest, s_param = String "S" (String d1 (String d2 rest)).
Proof.
  split.
  - destruct s_param as [|c [|e1 [|e2 rest]]]; simpl; try done;
      repeat (case_match; try done).
    intros [= <- <-].
    match goal with
    | Hd : _ && _ = true |- _ => apply andb_true_iff in Hd as [-> ->]
    end.
    eauto.
  - intros (Hd1 & Hd2 & rest & ->). by rewrite re_match_prefix, Hd1, Hd2.
Qed.

Lemma exact_label_re_match (s_param : string) :
  exact_label s_param = true → is_Some (re_match s_param).
Proof.
  destruct s_param as [|c [|d1 [|d2 [|? ?]]]]; simpl; try done;
    repeat (case_match; try done).
Qed.

(** Without a match every gain computation raises [ValueError]. *)
Lemma no_match_ValueError (network : Network.t) (s_param : string) (a b c d : Q) :
  re_match s_param = None →
  calculate_gain network s_param = Raise ValueError ∧
  calculate_gain_range network a b s_param = Raise ValueError ∧
  calculate_flatness network a b s_param = Raise ValueError ∧
  calculate_lowest_in_band_gain network a b s_param = Raise ValueError ∧
  calculate_oob_rejection network a b c d s_param = Raise ValueError.
Proof.
  intros Hm.
  assert (∀ n, calculate_gain n s_param = Raise ValueError) as Hg.
  { intros n. unfold calculate_gain. by rewrite Hm. }
  assert (∀ x y, calculate_gain_range network x y s_param = Raise ValueError) as Hr.
  { intros x y. unfold calculate_gain_range. by rewrite Hg. }
  unfold calculate_flatness, calculate_oob_rejection, calculate_lowest_in_band_gain.
  by rewrite !Hr, Hg.
Qed.

End label_facts.

(** ** Loops that accumulate results *)

Section loops.
Context {A B : Type}.

Lemma for_each_app (xs ys : list A) (body : A → B → res B) (state : B) :
  for_each (xs ++ ys) body state = for_each xs body state ≫= for_each ys body.
Proof.
  revert state. induction xs as [|x xs IH]; intros state; simpl; [done|].
  destruct (body x state) as [state'|e]; simpl; [apply IH|done].
Qed.

(** A loop whose body never raises is a left fold. *)
Lemma for_each_total (xs : list A) (body : A → B → res B) (step : B → A → B)
    (state : B) :
  (∀ x st, x ∈ xs → body x st = Ok (step st x)) →
  for_each xs body state = Ok (foldl step state xs).
Proof.
  revert state. induction xs as [|x xs IH]; intros state Hb; simpl; [done|].
  rewrite Hb by apply list_elem_of_here. simpl.
  apply IH. intros y st Hy. apply Hb. by apply list_elem_of_further.
Qed.

End loops.

Section collect.
Context `{RFScale}.
Import SParametersTestType.

Abbreviation collect_body evaluate :=
  (λ (s_param : string) (results : list TestResult.t),
     result ← evaluate s_param;
     Ok (match result with
         | Some r => results ++ [r]
         | None => results
         end)).

Lemma collect_from (s_params : list string)
    (evaluate : string → res (option TestResult.t)) (acc : list TestResult.t) :
  (∀ l, l ∈ s_params → ∃ o, evaluate l = Ok o) →
  for_each s_params (collect_body evaluate) acc
  = Ok (acc ++ omap (λ l, res_get (evaluate l)) s_params).
Proof.
  revert acc. induction s_params as [|l ls IH]; intros acc Hok; simpl.
  { by rewrite app_nil_r. }
  destruct (Hok l) as [o Ho]; [apply list_elem_of_here|].
  rewrite Ho. simpl. rewrite IH.
  - destruct o as [r|]; simpl; [|done]. by rewrite <-app_assoc.
  - intros l' Hl'. apply Hok. by apply list_elem_of_further.
Qed.

(** With an evaluation that never raises, [collect] returns the results
    of the labels that produced one, in label order. *)
Lemma collect_ok (s_params : list string)
    (evaluate : string → res (option TestResult.t)) :
  (∀ l, l ∈ s_params → ∃ o, evaluate l = Ok o) →
  collect s_params evaluate = Ok (omap (λ l, res_get (evaluate l)) s_params).
Proof. intros Hok. unfold collect. by rewrite collect_from. Qed.

Lemma collect_total (s_params : list string)
    (evaluate : string → res (option TestResult.t))
    (g : string → option TestResult.t) :
  (∀ l, evaluate l = Ok (g l)) →
  collect s_params evaluate = Ok (omap g s_params).
Proof.
  intros Hg. rewrite collect_ok by eauto. f_equal.
  apply list_omap_ext, Forall_Forall2_diag, Forall_forall.
  intros l _. by rewrite Hg.
Qed.

Lemma collect_from_inv (s_params : list string)
    (evaluate : string → res (option TestResult.t))
    (acc rs : list TestResult.t) :
  for_each s_params (collect_body evaluate) acc = Ok rs →
  ∀ l, l ∈ s_params → ∃ o, evaluate l = Ok o.
Proof.
  revert acc. induction s_params as [|l ls IH]; intros acc Hrs l' Hl'.
  { by apply elem_of_nil in Hl'. }
  simpl in Hrs. apply bind_Ok in Hrs as (st & Hst & Hrs).
  apply bind_Ok in Hst as (o & Ho & _).
  apply elem_of_cons in Hl' as [-> | Hl']; [eauto|].
  eapply IH; eauto.
Qed.

(** Every result of [collect] is the result of one of the labels. *)
Lemma collect_inv (s_params : list string)
    (evaluate : string → res (option TestResult.t)) (rs : list TestResult.t) :
  collect s_params evaluate = Ok rs →
  rs = omap (λ l, res_get (evaluate l)) s_params ∧
  ∀ r, r ∈ rs → ∃ l, l ∈ s_params ∧ evaluate l = Ok (Some r).
Proof.
  intros Hrs. pose proof (collect_from_inv _ _ _ _ Hrs) as Hok.
  rewrite (collect_ok _ _ Hok) in Hrs. injection Hrs as <-.
  split; [done|]. intros r (l & Hl & Hr)%list_elem_of_omap.
  exists l. split; [done|]. destruct (Hok l Hl) as [o Ho].
  rewrite Ho in Hr. simpl in Hr. by rewrite Ho, Hr.
Qed.

End collect.

Section extend.
Context {A B : Type}.

(** [for x in xs: results.extend(g(x))]. *)
Lemma for_each_extend (xs : list A) (g : A → res (list B)) (acc rs : list B) :
  for_each xs (λ x results, r ← g x; Ok (results ++ r)) acc = Ok rs ↔
  ∃ rss, Forall2 (λ x r, g x = Ok r) xs rss ∧ rs = acc ++ concat rss.
Proof.
  revert acc. induction xs as [|x xs IH]; intros acc; simpl.
  - split.
    + intros [= <-]. exists []. split; [constructor|]. by rewrite app_nil_r.
    + intros (rss & ->%Forall2_nil_inv_l & ->). by rewrite app_nil_r.
  - rewrite bind_Ok. split.
    + intros (st & (r & Hr & [= <-])%bind_Ok & (rss & Hrss & ->)%IH).
      exists (r :: rss). split; [by constructor|].
      simpl. by rewrite app_assoc.
    + intros (rss & Hrss & ->).
      apply Forall2_cons_inv_l in Hrss as (r & rss' & Hr & Hrss & ->).
      exists (acc ++ r). rewrite Hr. split; [done|].
      apply IH. exists rss'. split; [done|]. simpl. by rewrite app_assoc.
Qed.

End extend.

(** ** Dispatch of a criterion to its family *)

Section dispatch.
Context `{RFScale}.
Import SParametersTestType.

Lemma band_is_Some (c : TestCriteria.t) :
  bool_decide (is_Some (band c))
  = negb (bool_decide (TestCriteria.frequency_min c = None))
    && negb (bool_decide (TestCriteria.frequency_max c = None)).
Proof.
  unfold band.
  destruct (TestCriteria.frequency_min c), (TestCriteria.frequency_max c);
    simpl; try done.
  all: apply bool_decide_eq_false; by intros [? ?].
Qed.

(** The [if]/[elif] chain of the evaluator is a case analysis on
    [classify]. *)
Lemma evaluate_criterion_by_family (c : TestCriteria.t)
    (metrics : gmap string metric) (network : Network.t)
    (m : Measurement.t) (lo hi : Q) (gs vs : list string) :
  _evaluate_criterion_for_all_s_params c metrics network m lo hi gs vs =
    match classify c with
    | GainRangeFamily =>
        collect gs (λ l, _evaluate_gain_range_criterion c metrics l m)
    | FlatnessFamily =>
        collect gs (λ l, _evaluate_flatness_criterion c metrics l m)
    | VswrFamily =>
        collect vs (λ l, _evaluate_vswr_criterion c metrics l m)
    | OobFamily =>
        collect gs (λ l, _evaluate_oob_criterion c network l m lo hi)
    | Unclassified => Ok []
    end.
Proof.
  unfold _evaluate_criterion_for_all_s_params, classify.
  rewrite band_is_Some. unfold has_marker.
  by repeat case_match.
Qed.

End dispatch.



(** ** What the calculator can raise *)

Section calculator_errors.
Context `{RFScale}.
Import SParameterCalculator.

Lemma caught_Ok {A} (a : A) : caught (Ok a).
Proof. by intros e. Qed.

Lemma caught_bind {A B} (r : res A) (k : A → res B) :
  caught r → (∀ a, caught (k a)) → caught (r ≫= k).
Proof.
  intros Hr Hk e. destruct r as [a|e']; simpl.
  - apply Hk.
  - intros [= <-]. by apply Hr.
Qed.

Lemma caught_index (size : nat) (i : Z) : caught (np.index size i).
Proof. unfold np.index. intros e. by repeat case_match; intros [= <-]. Qed.

Lemma caught_column {A} (d : A) size a i j : caught (np.column d size a i j).
Proof.
  unfold np.column. apply caught_bind; [apply caught_index|].
  intros i'. apply caught_bind; [apply caught_index|]. intros. apply caught_Ok.
Qed.

Lemma caught_min (a : list Q) : caught (np.min a).
Proof. intros e. destruct a; simpl; [|done]. by intros [= <-]. Qed.

Lemma caught_max (a : list Q) : caught (np.max a).
Proof. intros e. destruct a; simpl; [|done]. by intros [= <-]. Qed.

Lemma caught_gain network s_param : caught (calculate_gain network s_param).
Proof.
  unfold calculate_gain. destruct (re_match s_param) as [[g1 g2]|].
  - apply caught_column.
  - by intros e [= <-].
Qed.

Lemma caught_gain_range network lo hi s_param :
  caught (calculate_gain_range network lo hi s_param).
Proof.
  unfold calculate_gain_range.
  apply caught_bind; [apply caught_gain|]. intros g.
  apply caught_bind; [apply caught_min|]. intros mn.
  apply caught_bind; [apply caught_max|]. intros. apply caught_Ok.
Qed.

Lemma caught_lowest network lo hi s_param :
  caught (calculate_lowest_in_band_gain network lo hi s_param).
Proof.
  unfold calculate_lowest_in_band_gain.
  apply caught_bind; [apply caught_gain_range|]. intros [??]. apply caught_Ok.
Qed.

Lemma caught_oob_rejection network a b lo hi s_param :
  caught (calculate_oob_rejection network a b lo hi s_param).
Proof.
  unfold calculate_oob_rejection.
  apply caught_bind; [apply caught_lowest|]. intros lowest.
  apply caught_bind; [apply caught_gain|]. intros g. apply caught_min.
Qed.

Lemma caught_vswr network port lo hi :
  caught (calculate_vswr network port lo hi).
Proof.
  unfold calculate_vswr. apply caught_bind.
  - intros e. pose proof (caught_column 0%Q
      (Network.nports (match lo, hi with
                       | Some l, Some h => filter_frequency_range network l h
                       | _, _ => network end))
      (Network.s_vswr (match lo, hi with
                       | Some l, Some h => filter_frequency_range network l h
                       | _, _ => network end)) (port - 1) (port - 1)) as Hc.
    destruct (np.column _ _ _ _ _) as [v|e']; [done|].
    specialize (Hc e' eq_refl). destruct e'; try done; by intros [= <-].
  - intros v. destruct lo, hi; try apply caught_Ok.
    apply caught_bind; [apply caught_max|]. intros. apply caught_Ok.
Qed.

Lemma try_except_caught {A} (body handler : res A) :
  caught body →
  try_except body handler = match body with Ok a => Ok a | Raise _ => handler end.
Proof.
  intros Hc. destruct body as [a|e]; simpl; [done|]. by rewrite (Hc e).
Qed.

End calculator_errors.

(** ** Out-of-band evaluation *)

Section oob_facts.
Context `{RFScale}.
Import SParametersTestType.

(** The OOB evaluation of one label never raises: it yields a result
    exactly when the band is set and the rejection can be computed. *)
Lemma evaluate_oob_unfold (c : TestCriteria.t) (network : Network.t)
    (l : string) (m : Measurement.t) (lo hi : Q) :
  _evaluate_oob_criterion c network l m lo hi =
    Ok (match band c with
        | None => None
        | Some (flo, fhi) =>
            match SParameterCalculator.calculate_oob_rejection
                    network flo fhi lo hi l with
            | Ok rejection =>
                Some (result_of m c l rejection (oob_passed c rejection))
            | Raise _ => None
            end
        end).
Proof.
  unfold _evaluate_oob_criterion, band, oob_passed.
  destruct (TestCriteria.frequency_min c) as [flo|]; [|done].
  destruct (TestCriteria.frequency_max c) as [fhi|]; [|done].
  rewrite try_except_caught.
  - destruct (SParameterCalculator.calculate_oob_rejection _ _ _ _ _ _)
      as [rejection|e]; simpl; [|done].
    do 3 f_equal. unfold py.truthy, TestCriteria.ge_opt.
    by destruct (TestCriteria.min_value c) as [lower|]; [destruct (Qeq_bool lower 0)|].
  - apply caught_bind; [apply caught_oob_rejection|]. intros. apply caught_Ok.
Qed.

End oob_facts.

(** ** Keys of the metrics dictionary *)

Section keys.

Lemma list_ascii_app (s t : string) :
  list_ascii_of_string (s +:+ t)
  = list_ascii_of_string s ++ list_ascii_of_string t.
Proof. induction s as [|c s IH]; simpl; [done|]. by rewrite <-IH. Qed.

Lemma list_ascii_inj (s t : string) :
  list_ascii_of_string s = list_ascii_of_string t → s = t.
Proof.
  intros Heq. rewrite <-(string_of_list_ascii_of_string s),
    <-(string_of_list_ascii_of_string t). by rewrite Heq.
Qed.

(** Two keys with the same suffix come from the same label. *)
Lemma key_inj (s1 s2 suffix : string) :
  s1 +:+ suffix = s2 +:+ suffix → s1 = s2.
Proof.
  intros Heq. apply list_ascii_inj.
  apply (f_equal list_ascii_of_string) in Heq.
  rewrite !list_ascii_app in Heq. by apply app_inv_tail in Heq.
Qed.

(** Two keys whose suffixes end in different characters differ. *)
Lemma key_ne (s1 s2 t1 t2 : string) (c1 c2 : ascii) :
  last (list_ascii_of_string t1) = Some c1 →
  last (list_ascii_of_string t2) = Some c2 →
  c1 ≠ c2 →
  s1 +:+ t1 ≠ s2 +:+ t2.
Proof.
  intros H1 H2 Hne Heq. apply (f_equal list_ascii_of_string) in Heq.
  apply (f_equal last) in Heq. rewrite !list_ascii_app, !last_app, H1, H2 in Heq.
  congruence.
Qed.

End keys.

(** Closes a goal that equates two keys with different suffixes. *)
Ltac key_clash :=
  match goal with
  | Heq : _ +:+ _ = _ +:+ _ |- _ =>
      exfalso; revert Heq; eapply key_ne; [reflexivity|reflexivity|discriminate]
  end.

(** ** The metrics dictionary *)

Section metrics.
Context `{RFScale}.
Import SParametersTestType.

Lemma list_bind_assoc {A B C} (f : A → list B) (g : B → list C) (l : list A) :
  (l ≫= f) ≫= g = l ≫= (λ x, f x ≫= g).
Proof.
  induction l as [|x l IH]; [done|].
  rewrite !bind_cons, bind_app. by rewrite IH.
Qed.

Lemma foldl_put_list_to_map (entries : list (string * metric)) :
  foldl put ∅ entries = list_to_map (reverse entries).
Proof.
  induction entries as [|[k v] entries IH] using rev_ind; [done|].
  rewrite foldl_snoc, IH, reverse_snoc. done.
Qed.

(** A loop whose body stores a list of entries stores them all. *)
Lemma for_each_put {A} (xs : list A)
    (body : A → gmap string metric → res (gmap string metric))
    (g : A → list (string * metric)) (metrics : gmap string metric) :
  (∀ x m, body x m = Ok (foldl put m (g x))) →
  for_each xs body metrics = Ok (foldl put metrics (xs ≫= g)).
Proof.
  intros Hb. revert metrics.
  induction xs as [|x xs IH]; intros metrics; simpl; [done|].
  rewrite Hb. simpl. by rewrite IH, foldl_app.
Qed.

Lemma gain_metrics_body_put network lo hi s_param metrics :
  gain_metrics_body network lo hi s_param metrics
  = Ok (foldl put metrics (gain_entries network lo hi s_param)).
Proof.
  unfold gain_metrics_body, gain_entries,
    SParameterCalculator.calculate_flatness,
    SParameterCalculator.calculate_lowest_in_band_gain.
  pose proof (caught_gain_range network lo hi s_param) as Hc.
  destruct (SParameterCalculator.calculate_gain_range _ _ _ _) as [[mn mx]|e];
    simpl; [done|].
  unfold except_pass. by rewrite (Hc e).
Qed.

Lemma vswr_metrics_body_put network lo hi port metrics :
  vswr_metrics_body network lo hi port metrics
  = Ok (foldl put metrics (vswr_entries network lo hi port)).
Proof.
  unfold vswr_metrics_body, vswr_entries.
  pose proof (caught_vswr network port (Some lo) (Some hi)) as Hc.
  destruct (SParameterCalculator.calculate_vswr _ _ _ _) as [v|e]; simpl; [done|].
  unfold except_pass. by rewrite (Hc e).
Qed.

(** [calculate_metrics] raises only for a measurement without data;
    otherwise the dictionary holds, for every key, the last entry stored
    under it. *)
Lemma calculate_metrics_stored (m : Measurement.t) (network : Network.t)
    (lo hi : Q) :
  Measurement.touchstone_data m = Some network →
  calculate_metrics m lo hi
  = Ok (list_to_map (reverse (stored_entries network lo hi))).
Proof.
  intros Hm. unfold calculate_metrics. rewrite Hm.
  rewrite (for_each_put _ _
    (λ o, seqZ 1 (Z.of_nat (Network.nports network)) ≫=
            λ i, gain_entries network lo hi (Device.label o i))).
  2:{ intros o metrics. apply for_each_put. intros i metrics'.
      apply gain_metrics_body_put. }
  simpl.
  rewrite (for_each_put _ _ (vswr_entries network lo hi)).
  2:{ intros p metrics. apply vswr_metrics_body_put. }
  f_equal. rewrite <-foldl_app, foldl_put_list_to_map.
  do 2 f_equal. unfold stored_entries, all_labels. f_equal.
  rewrite list_bind_assoc. apply list_bind_ext; [|done]. intros o.
  rewrite list_bind_assoc. apply list_bind_ext; [|done]. intros i.
  by rewrite bind_singleton.
Qed.

End metrics.

(** ** Reflection labels *)

Section reflection_labels.

Lemma label_diag_inj (p q : Z) : Device.label p p = Device.label q q → p = q.
Proof.
  unfold Device.label. intros Heq.
  apply (inj (String.app "S")) in Heq.
  apply (f_equal list_ascii_of_string) in Heq. rewrite !list_ascii_app in Heq.
  apply (inj pretty), list_ascii_inj.
  apply (app_inj_1 _ _ _ _) in Heq; [by destruct Heq|].
  apply (f_equal length) in Heq. rewrite !length_app in Heq. lia.
Qed.

Lemma port_of_label_Some (n_ports : Z) (l : string) (p : Z) :
  port_of_label n_ports l = Some p ↔ p ∈ seqZ 1 n_ports ∧ Device.label p p = l.
Proof.
  unfold port_of_label. split.
  - destruct (list_find _ _) as [[i q]|] eqn:Hf; [|done].
    intros [= <-]. apply list_find_Some in Hf as (Hi & Hq & _).
    split; [|done]. by eapply list_elem_of_lookup_2.
  - intros [Hp Hl].
    destruct (list_find (λ p, Device.label p p = l) (seqZ 1 n_ports))
      as [[i q]|] eqn:Hf.
    + apply list_find_Some in Hf as (_ & Hq & _). simpl. f_equal.
      apply label_diag_inj. congruence.
    + apply list_find_None in Hf. rewrite Forall_forall in Hf.
      by destruct (Hf p Hp).
Qed.

Lemma port_of_label_None (n_ports : Z) (l : string) :
  port_of_label n_ports l = None ↔
  ∀ p, p ∈ seqZ 1 n_ports → Device.label p p ≠ l.
Proof.
  split.
  - intros Hn p Hp Hl.
    assert (port_of_label n_ports l = Some p) as Hs by by apply port_of_label_Some.
    congruence.
  - intros Hne. destruct (port_of_label n_ports l) as [p|] eqn:Hp; [|done].
    apply port_of_label_Some in Hp as [Hp Hl]. by destruct (Hne p Hp).
Qed.

End reflection_labels.

Section metrics_lookup.
Context `{RFScale}.
Import SParametersTestType.

Lemma list_to_map_lookup_Some (entries : list (string * metric)) k v :
  (k, v) ∈ entries →
  (∀ v', (k, v') ∈ entries → v' = v) →
  (list_to_map (reverse entries) : gmap string metric) !! k = Some v.
Proof.
  intros Hin Hfun.
  destruct ((list_to_map (reverse entries) : gmap string metric) !! k)
    as [v'|] eqn:Hk.
  - apply elem_of_list_to_map_2 in Hk. rewrite elem_of_reverse in Hk.
    f_equal. by apply Hfun.
  - apply not_elem_of_list_to_map_2 in Hk. exfalso. apply Hk.
    apply list_elem_of_fmap. exists (k, v). split; [done|].
    by rewrite elem_of_reverse.
Qed.

Lemma list_to_map_lookup_None (entries : list (string * metric)) k :
  (∀ v, (k, v) ∉ entries) →
  (list_to_map (reverse entries) : gmap string metric) !! k = None.
Proof.
  intros Hnot. apply not_elem_of_list_to_map_1.
  intros ([k' v] & -> & Hin)%list_elem_of_fmap.
  rewrite elem_of_reverse in Hin. by apply (Hnot v).
Qed.

Variables (network : Network.t) (lo hi : Q).
Let n_ports := Z.of_nat (Network.nports network).
Let metrics : gmap string metric :=
  list_to_map (reverse (stored_entries network lo hi)).

(** Where an entry of the dictionary comes from. *)
Lemma elem_of_stored k v :
  (k, v) ∈ stored_entries network lo hi ↔
  (∃ l mn mx,
      l ∈ all_labels n_ports ∧
      SParameterCalculator.calculate_gain_range network lo hi l = Ok (mn, mx) ∧
      ((k, v) = (l +:+ " Gain Range", GainRangeMetric mn mx) ∨
       (k, v) = (l +:+ " Flatness", ScalarMetric (mx - mn)%Q) ∨
       (k, v) = (l +:+ " Lowest In-Band Gain", ScalarMetric mn))) ∨
  (∃ p vswr,
      p ∈ seqZ 1 n_ports ∧
      SParameterCalculator.calculate_vswr network p (Some lo) (Some hi) = Ok vswr ∧
      (k, v) = (Device.label p p +:+ " VSWR", metric_of_vswr vswr)).
Proof.
  unfold stored_entries. fold n_ports.
  rewrite elem_of_app, !list_elem_of_bind. split.
  - intros [(l & Hin & Hl) | (p & Hin & Hp)].
    + left. unfold gain_entries in Hin.
      destruct (SParameterCalculator.calculate_gain_range _ _ _ _)
        as [[mn mx]|e] eqn:Hc; [|by apply elem_of_nil in Hin].
      exists l, mn, mx. split; [done|]. split; [done|].
      rewrite !elem_of_cons, elem_of_nil in Hin. tauto.
    + right. unfold vswr_entries in Hin.
      destruct (SParameterCalculator.calculate_vswr _ _ _ _)
        as [vswr|e] eqn:Hc; [|by apply elem_of_nil in Hin].
      exists p, vswr. split; [done|]. split; [done|].
      by apply list_elem_of_singleton in Hin.
  - intros [(l & mn & mx & Hl & Hc & Hkv) | (p & vswr & Hp & Hc & Hkv)].
    + left. exists l. split; [|done]. unfold gain_entries. rewrite Hc.
      rewrite !elem_of_cons. tauto.
    + right. exists p. split; [|done]. unfold vswr_entries. rewrite Hc.
      by apply list_elem_of_singleton.
Qed.

Lemma lookup_gain_range (l : string) :
  metrics !! (l +:+ " Gain Range") =
    if bool_decide (l ∈ all_labels n_ports) then
      match SParameterCalculator.calculate_gain_range network lo hi l with
      | Ok (mn, mx) => Some (GainRangeMetric mn mx)
      | Raise _ => None
      end
    else None.
Proof.
  assert (∀ v, (l +:+ " Gain Range", v) ∈ stored_entries network lo hi →
            l ∈ all_labels n_ports ∧ ∃ mn mx,
              SParameterCalculator.calculate_gain_range network lo hi l = Ok (mn, mx)
              ∧ v = GainRangeMetric mn mx) as Hinv.
  { intros v [(l' & mn & mx & Hl & Hc & [Heq|[Heq|Heq]]) | (p & vswr & _ & _ & Heq)]%elem_of_stored;
      injection Heq as Heq ->; try key_clash.
    apply key_inj in Heq as ->. eauto. }
  case_bool_decide as Hl.
  - destruct (SParameterCalculator.calculate_gain_range network lo hi l)
      as [[mn mx]|e] eqn:Hc.
    + apply list_to_map_lookup_Some.
      * apply elem_of_stored. left. exists l, mn, mx. auto.
      * intros v' (_ & mn' & mx' & Hc' & ->)%Hinv. congruence.
    + apply list_to_map_lookup_None.
      intros v (_ & mn' & mx' & Hc' & _)%Hinv. congruence.
  - apply list_to_map_lookup_None. intros v (Hl' & _)%Hinv. done.
Qed.

Lemma lookup_flatness (l : string) :
  metrics !! (l +:+ " Flatness") =
    if bool_decide (l ∈ all_labels n_ports) then
      match SParameterCalculator.calculate_flatness network lo hi l with
      | Ok flatness => Some (ScalarMetric flatness)
      | Raise _ => None
      end
    else None.
Proof.
  assert (∀ v, (l +:+ " Flatness", v) ∈ stored_entries network lo hi →
            l ∈ all_labels n_ports ∧ ∃ mn mx,
              SParameterCalculator.calculate_gain_range network lo hi l = Ok (mn, mx)
              ∧ v = ScalarMetric (mx - mn)%Q) as Hinv.
  { intros v [(l' & mn & mx & Hl & Hc & [Heq|[Heq|Heq]]) | (p & vswr & _ & _ & Heq)]%elem_of_stored;
      injection Heq as Heq ->; try key_clash.
    apply key_inj in Heq as ->. eauto. }
  unfold SParameterCalculator.calculate_flatness.
  case_bool_decide as Hl.
  - destruct (SParameterCalculator.calculate_gain_range network lo hi l)
      as [[mn mx]|e] eqn:Hc; simpl.
    + apply list_to_map_lookup_Some.
      * apply elem_of_stored. left. exists l, mn, mx. auto.
      * intros v' (_ & mn' & mx' & Hc' & ->)%Hinv. congruence.
    + apply list_to_map_lookup_None.
      intros v (_ & mn' & mx' & Hc' & _)%Hinv. congruence.
  - apply list_to_map_lookup_None. intros v (Hl' & _)%Hinv. done.
Qed.

Lemma lookup_vswr (l : string) :
  metrics !! (l +:+ " VSWR") =
    match port_of_label n_ports l with
    | Some p =>
        match SParameterCalculator.calculate_vswr network p (Some lo) (Some hi) with
        | Ok vswr => Some (metric_of_vswr vswr)
        | Raise _ => None
        end
    | None => None
    end.
Proof.
  assert (∀ v, (l +:+ " VSWR", v) ∈ stored_entries network lo hi →
            ∃ p vswr, port_of_label n_ports l = Some p ∧
              SParameterCalculator.calculate_vswr network p (Some lo) (Some hi) = Ok vswr
              ∧ v = metric_of_vswr vswr) as Hinv.
  { intros v [(l' & mn & mx & Hl & Hc & [Heq|[Heq|Heq]]) | (p & vswr & Hp & Hc & Heq)]%elem_of_stored;
      injection Heq as Heq ->; try key_clash.
    apply key_inj in Heq. exists p, vswr. split; [|done].
    by apply port_of_label_Some. }
  destruct (port_of_label n_ports l) as [p|] eqn:Hp.
  - destruct (SParameterCalculator.calculate_vswr network p (Some lo) (Some hi))
      as [vswr|e] eqn:Hc.
    + apply port_of_label_Some in Hp as [Hp <-].
      apply list_to_map_lookup_Some.
      * apply elem_of_stored. right. exists p, vswr. auto.
      * intros v' (p' & vswr' & [= <-] & Hc' & ->)%Hinv. congruence.
    + apply list_to_map_lookup_None.
      intros v (p' & vswr' & Hp' & Hc' & _)%Hinv. congruence.
  - apply list_to_map_lookup_None.
    intros v (p' & vswr' & Hp' & _)%Hinv. congruence.
Qed.

End metrics_lookup.

(** ** One criterion, one label *)

Section expected.
Context `{RFScale}.
Import SParametersTestType.

Lemma passes_evaluate (c : TestCriteria.t) (v : Q) :
  TestCriteria.constructed c → TestCriteria.evaluate c v = Ok (passes c v).
Proof.
  intros Hc. unfold passes.
  by destruct (constructed_evaluate_ok c v Hc) as [b ->].
Qed.

(** With a frequency range, [calculate_vswr] returns a scalar. *)
Lemma calculate_vswr_scalar network port lo hi v :
  SParameterCalculator.calculate_vswr network port (Some lo) (Some hi) = Ok v →
  ∃ x, v = VswrScalar x.
Proof.
  unfold SParameterCalculator.calculate_vswr.
  intros (a & _ & (x & _ & [= <-])%bind_Ok)%bind_Ok. eauto.
Qed.

Variables (network : Network.t) (m : Measurement.t) (lo hi : Q).
Variable c : TestCriteria.t.
Hypothesis Hc : TestCriteria.constructed c.
Let metrics : gmap string metric :=
  list_to_map (reverse (stored_entries network lo hi)).

Lemma evaluate_gain_range_expected (l : string) :
  classify c = GainRangeFamily →
  _evaluate_gain_range_criterion c metrics l m
  = Ok (expected_result network m lo hi c l).
Proof.
  intros Hf. unfold _evaluate_gain_range_criterion, expected_result, metrics.
  rewrite Hf, lookup_gain_range. case_bool_decide; [|done].
  destruct (SParameterCalculator.calculate_gain_range network lo hi l)
    as [[mn mx]|e]; [|done].
  by rewrite !passes_evaluate.
Qed.

Lemma evaluate_flatness_expected (l : string) :
  classify c = FlatnessFamily →
  _evaluate_flatness_criterion c metrics l m
  = Ok (expected_result network m lo hi c l).
Proof.
  intros Hf.
  unfold _evaluate_flatness_criterion, evaluate_scalar_metric, expected_result, metrics.
  rewrite Hf, lookup_flatness. case_bool_decide; [|done].
  destruct (SParameterCalculator.calculate_flatness network lo hi l)
    as [fl|e]; [|done].
  by rewrite passes_evaluate.
Qed.

Lemma evaluate_vswr_expected (l : string) :
  classify c = VswrFamily →
  _evaluate_vswr_criterion c metrics l m
  = Ok (expected_result network m lo hi c l).
Proof.
  intros Hf.
  unfold _evaluate_vswr_criterion, evaluate_scalar_metric, expected_result, metrics.
  rewrite Hf, lookup_vswr.
  destruct (port_of_label _ l) as [p|]; [|done].
  destruct (SParameterCalculator.calculate_vswr network p (Some lo) (Some hi))
    as [v|e] eqn:Hv; [|done].
  destruct (calculate_vswr_scalar _ _ _ _ _ Hv) as [x ->]. simpl.
  by rewrite passes_evaluate.
Qed.

Lemma evaluate_oob_expected (l : string) :
  classify c = OobFamily →
  _evaluate_oob_criterion c network l m lo hi
  = Ok (expected_result network m lo hi c l).
Proof.
  intros Hf. rewrite evaluate_oob_unfold. unfold expected_result.
  rewrite Hf. by destruct (band c) as [[flo fhi]|].
Qed.

(** One criterion over arbitrary label lists: every label contributes
    its expected result or nothing, whatever the other labels do. *)
Lemma evaluate_criterion_expected (gs vs : list string) :
  _evaluate_criterion_for_all_s_params c metrics network m lo hi gs vs
  = Ok (omap (expected_result network m lo hi c) (labels_for gs vs c)).
Proof.
  rewrite evaluate_criterion_by_family. unfold labels_for.
  destruct (classify c) eqn:Hf; [..|done].
  - apply collect_total. intros l. by apply evaluate_gain_range_expected.
  - apply collect_total. intros l. by apply evaluate_flatness_expected.
  - apply collect_total. intros l. by apply evaluate_vswr_expected.
  - apply collect_total. intros l. by apply evaluate_oob_expected.
Qed.

End expected.

(** ** The whole evaluation *)

Section compliance.
Context `{RFScale}.
Import SParametersTestType.

Lemma concat_fmap_bind {A B} (g : A → list B) (l : list A) :
  concat (g <$> l) = l ≫= g.
Proof.
  induction l as [|x l IH]; [done|].
  by rewrite fmap_cons, bind_cons, concat_cons, IH.
Qed.

(** [evaluate_compliance] on a measurement with data and constructed
    criteria: the expected results of all (criterion, label) pairs, in
    criterion order and then label order. *)
Lemma evaluate_compliance_expected (m : Measurement.t) (d : Device.t)
    (cs : list TestCriteria.t) (lo hi : Q) (network : Network.t) :
  Measurement.touchstone_data m = Some network →
  Forall TestCriteria.constructed cs →
  let n_ports := Z.of_nat (Network.nports network) in
  evaluate_compliance m d cs lo hi
  = Ok (c ← cs;
        omap (expected_result network m lo hi c)
          (labels_for (Device.get_gain_s_parameters d n_ports)
             (Device.get_vswr_s_parameters d n_ports) c)).
Proof.
  intros Hm Hcs n_ports. unfold evaluate_compliance.
  rewrite (calculate_metrics_stored m network lo hi Hm). simpl. rewrite Hm.
  apply for_each_extend.
  exists ((λ c, omap (expected_result network m lo hi c)
                  (labels_for (Device.get_gain_s_parameters d n_ports)
                     (Device.get_vswr_s_parameters d n_ports) c)) <$> cs).
  split; [|by rewrite concat_fmap_bind].
  apply Forall2_fmap_r, Forall_Forall2_diag.
  eapply Forall_impl; [exact Hcs|]. intros c Hc. simpl.
  by apply evaluate_criterion_expected.
Qed.

(** Without data the evaluation raises [ValueError]. *)
Lemma evaluate_compliance_no_data (m : Measurement.t) (d : Device.t)
    (cs : list TestCriteria.t) (lo hi : Q) :
  Measurement.touchstone_data m = None →
  evaluate_compliance m d cs lo hi = Raise ValueError.
Proof.
  intros Hm. unfold evaluate_compliance, calculate_metrics. by rewrite Hm.
Qed.

End compliance.

(** C7. The failure of the metric calculation of one (criterion, label)
    pair omits that pair's result and nothing else.  For a measurement with
    data and constructed criteria, one criterion evaluated over any two
    label lists (well-formed or not) returns, without raising, exactly the
    results of the labels whose metric is available; and
    [evaluate_compliance] returns, without raising, exactly the results of
    the (criterion, label) pairs whose metric is available, in order. *)
Theorem metric_failures_are_isolated `{RFScale}
    (m : Measurement.t) (d : Device.t) (cs : list TestCriteria.t)
    (lo hi : Q) (network : Network.t) :
  Measurement.touchstone_data m = Some network →
  Forall TestCriteria.constructed cs →
  let n_ports := Z.of_nat (Network.nports network) in
  (∃ metrics,
     SParametersTestType.calculate_metrics m lo hi = Ok metrics ∧
     ∀ c gs vs, c ∈ cs →
       SParametersTestType._evaluate_criterion_for_all_s_params
         c metrics network m lo hi gs vs
       = Ok (omap (expected_result network m lo hi c) (labels_for gs vs c))) ∧
  SParametersTestType.evaluate_compliance m d cs lo hi
  = Ok (c ← cs;
        omap (expected_result network m lo hi c)
          (labels_for (Device.get_gain_s_parameters d n_ports)
             (Device.get_vswr_s_parameters d n_ports) c)).
Proof.
  intros Hm Hcs n_ports. split.
  - eexists. split; [by apply calculate_metrics_stored|].
    intros c gs vs Hc. apply evaluate_criterion_expected.
    rewrite Forall_forall in Hcs. by apply Hcs.
  - by apply evaluate_compliance_expected.
Qed.

(** On the sample amplifier, the out-of-band criterion over the labels
    S21, S2 (malformed), S91 (no such port) and S12 yields the results of
    S21 and S12 only. *)
Lemma metric_failures_are_isolated_witness :
  ∃ metrics r1 r2,
    SParametersTestType.calculate_metrics (H:=demo.scale) demo.measurement 1 2
      = Ok metrics ∧
    SParametersTestType._evaluate_criterion_for_all_s_params (H:=demo.scale)
      (demo.oob 60) metrics demo.network demo.measurement 1 2
      ["S21"; "S2"; "S91"; "S12"] ["S11"]
      = Ok [r1; r2] ∧
    TestResult.s_parameter r1 = Some "S21" ∧
    TestResult.s_parameter r2 = Some "S12".
Proof.
  destruct (metric_failures_are_isolated (H:=demo.scale)
              demo.measurement demo.device [demo.gain_range; demo.oob 60] 1 2
              demo.network) as [(metrics & Hmetrics & Hone) _].
  - reflexivity.
  - repeat constructor.
  - exists metrics. do 2 eexists. split; [exact Hmetrics|].
    rewrite Hone by (apply list_elem_of_further, list_elem_of_here).
    vm_compute. repeat split.
Defined.

(** ** Out-of-band pass flag *)

Section oob_pass.
Context `{RFScale}.
Import SParametersTestType.

(** With a non-zero lower bound the flag is [rejection >= lower]; with no
    lower bound, or a zero one, it is false. *)
Lemma oob_passed_cases (c : TestCriteria.t) (rejection : Q) :
  match TestCriteria.min_value c with
  | Some lower =>
      if Qeq_bool lower 0 then oob_passed c rejection = false
      else oob_passed c rejection = bool_decide (lower <= rejection)%Q
  | None => oob_passed c rejection = false
  end.
Proof.
  unfold oob_passed. destruct (TestCriteria.min_value c) as [lower|]; [|done].
  destruct (Qeq_bool lower 0); simpl; [done|]. apply Qle_bool_decide.
Qed.

(** Every result of an out-of-band criterion carries the rejection of
    its label and the flag [oob_passed]. *)
Lemma oob_results (m : Measurement.t) (d : Device.t) (c : TestCriteria.t)
    (lo hi : Q) (rs : list TestResult.t) :
  classify c = OobFamily →
  evaluate_compliance m d [c] lo hi = Ok rs →
  ∃ network flo fhi,
    Measurement.touchstone_data m = Some network ∧
    band c = Some (flo, fhi) ∧
    ∀ r, r ∈ rs →
      ∃ l rejection,
        l ∈ Device.get_gain_s_parameters d (Z.of_nat (Network.nports network)) ∧
        SParameterCalculator.calculate_oob_rejection network flo fhi lo hi l
          = Ok rejection ∧
        r = result_of m c l rejection (oob_passed c rejection).
Proof.
  intros Hf. unfold evaluate_compliance.
  intros (metrics & Hmetrics & Hrs)%bind_Ok.
  destruct (Measurement.touchstone_data m) as [network|] eqn:Hm; [|done].
  simpl in Hrs. apply bind_Ok in Hrs as (rs' & (crs & Hcrs & [= <-])%bind_Ok & [= <-]).
  rewrite evaluate_criterion_by_family, Hf in Hcrs.
  apply collect_inv in Hcrs as [_ Hcrs].
  assert (is_Some (band c)) as [[flo fhi] Hb].
  { unfold classify in Hf. repeat case_match; try done.
    by eapply bool_decide_eq_true_1. }
  exists network, flo, fhi. split; [done|]. split; [done|].
  intros r Hr. simpl in Hr. destruct (Hcrs r Hr) as (l & Hl & Hev).
  rewrite evaluate_oob_unfold, Hb in Hev.
  destruct (SParameterCalculator.calculate_oob_rejection network flo fhi lo hi l)
    as [rejection|e] eqn:Hrej; [|done].
  injection Hev as <-. eauto.
Qed.

End oob_pass.

(** C10. Construction accepts a lower bound of zero for the kinds min,
    greater_than_equal and range; and for an out-of-band criterion whose
    lower bound is zero, every result [evaluate_compliance] produces has
    [passed = false], although its rejection was computed: the flag tests
    the truth value of the bound before comparing. *)
Theorem oob_zero_lower_bound_never_passes `{RFScale}
    (m : Measurement.t) (d : Device.t) (c : TestCriteria.t)
    (lo hi lower : Q) (rs : list TestResult.t) :
  classify c = OobFamily →
  TestCriteria.min_value c = Some lower →
  (lower == 0)%Q →
  SParametersTestType.evaluate_compliance m d [c] lo hi = Ok rs →
  (∀ i name flo fhi,
     (flo < fhi)%Q →
     TestCriteria.constructed
       (TestCriteria.mk i name "min" (Some 0%Q) None (Some flo) (Some fhi)) ∧
     TestCriteria.constructed
       (TestCriteria.mk i name "greater_than_equal" (Some 0%Q) None (Some flo) (Some fhi)) ∧
     ∀ upper, (0 < upper)%Q →
       TestCriteria.constructed
         (TestCriteria.mk i name "range" (Some 0%Q) (Some upper) (Some flo) (Some fhi))) ∧
  ∀ r, r ∈ rs →
    TestResult.passed r = false ∧
    ∃ rejection, TestResult.measured_value r = Some rejection.
Proof.
  intros Hf Hmin Hzero Hrs. split.
  - intros i name flo fhi Hband.
    assert (Qle_bool fhi flo = false) as Hb by by apply Qle_bool_false.
    unfold TestCriteria.constructed, TestCriteria.construct,
      TestCriteria.validate_criteria_values. simpl.
    rewrite Hb. repeat split.
    intros upper Hup. apply Qle_bool_false in Hup. by rewrite Hup.
  - destruct (oob_results m d c lo hi rs Hf Hrs)
      as (network & flo & fhi & _ & _ & Hall).
    intros r Hr. destruct (Hall r Hr) as (l & rejection & _ & _ & ->).
    split; [|by exists rejection]. simpl.
    unfold oob_passed. rewrite Hmin.
    apply Qeq_bool_iff in Hzero. by rewrite Hzero.
Qed.

(** On the sample amplifier the rejection of S21 over 3 to 4 GHz is 55 dBc;
    against a lower bound of zero the result fails. *)
Lemma oob_zero_lower_bound_never_passes_witness :
  ∃ r rejection,
    SParametersTestType.evaluate_compliance (H:=demo.scale)
      demo.measurement demo.device [demo.oob 0] 1 2 = Ok [r] ∧
    TestResult.measured_value r = Some rejection ∧
    (rejection == 55)%Q ∧
    TestResult.passed r = false.
Proof.
  eexists. eexists.
  assert (SParametersTestType.evaluate_compliance (H:=demo.scale)
            demo.measurement demo.device [demo.oob 0] 1 2 = Ok _) as Hrun
    by (vm_compute; reflexivity).
  split; [exact Hrun|]. split; [reflexivity|]. split; [reflexivity|].
  refine (proj1 (proj2 (oob_zero_lower_bound_never_passes (H:=demo.scale)
    demo.measurement demo.device (demo.oob 0) 1 2 0 _ _ _ _ Hrun) _ _)).
  - reflexivity.
  - reflexivity.
  - reflexivity.
  - apply list_elem_of_here.
Defined.

(** C5 at the input where it fails: on the sample amplifier the worst-case
    rejection of S21 over the band 3 to 4 GHz is 55 dBc, the constructed
    criterion requires at least 0 dBc, and the result is marked failed. *)
Theorem oob_zero_bound_fails_passing_rejection :
  TestCriteria.constructed (demo.oob 0) ∧
  ∃ rejection,
    SParametersTestType._evaluate_oob_criterion (H:=demo.scale)
      (demo.oob 0) demo.network "S21" demo.measurement 1 2
      = Ok (Some (result_of demo.measurement (demo.oob 0) "S21" rejection false)) ∧
    (rejection == 55)%Q ∧
    bool_decide (0 <= rejection)%Q = true.
Proof.
  split; [reflexivity|]. eexists. split; [vm_compute; reflexivity|].
  split; [reflexivity|]. by apply bool_decide_eq_true_2.
Qed.

(** C6 at the input where it fails: the label "S211" is not of the exact
    form, and [calculate_gain] returns for it the gain of S21. *)
Theorem calculate_gain_accepts_trailing_characters :
  exact_label "S211" = false ∧
  ∃ gains,
    SParameterCalculator.calculate_gain (H:=demo.scale) demo.network "S211"
      = Ok gains ∧
    SParameterCalculator.calculate_gain (H:=demo.scale) demo.network "S21"
      = Ok gains.
Proof. split; [reflexivity|]. eexists. split; reflexivity. Qed.

Section label_prefix.
Context `{RFScale}.

(** Only the first three characters of a label are read. *)
Lemma calculate_gain_prefix (network : Network.t) (d1 d2 : ascii)
    (rest : string) :
  SParameterCalculator.calculate_gain network
    (String "S" (String d1 (String d2 rest)))
  = SParameterCalculator.calculate_gain network
      (String "S" (String d1 (String d2 EmptyString))).
Proof. done. Qed.

(** [calculate_gain] raises [ValueError] exactly for the labels that do
    not start with [S] and two digits. *)
Lemma calculate_gain_ValueError (network : Network.t) (s_param : string) :
  SParameterCalculator.calculate_gain network s_param = Raise ValueError ↔
  SParameterCalculator.re_match s_param = None.
Proof.
  unfold SParameterCalculator.calculate_gain.
  destruct (SParameterCalculator.re_match s_param) as [[g1 g2]|]; [|done].
  split; [|done]. unfold np.column, np.index.
  repeat case_match; simpl; try done.
Qed.

End label_prefix.
